(** * Registry constants of the ts-web client SDK

    A shallow embedding of [client-sdk/ts-web/core/src/registry.ts] (the
    exported constant bindings of the registry module) and of
    [client-sdk/ts-web/rt/cypress.config.ts] (the default-exported test-runner
    configuration), followed by the properties the specification states
    about them.

    TypeScript [string] values are modelled as [string]; the numeric
    constants are small exact integers and are modelled as [Z]; a binding
    defined from another binding ([export const A = B;]) is defined from
    that binding here as well. *)

From Stdlib Require Import ZArith List Finite String Ascii Bool Lia.
Import ListNotations.

Open Scope string_scope.
Open Scope Z_scope.

(** ** registry.ts *)

Module Registry.

(** Signature contexts (registry.ts, lines 9-30). *)
Definition REGISTER_ENTITY_SIGNATURE_CONTEXT : string :=
  "oasis-core/registry: register entity".
Definition REGISTER_GENESIS_ENTITY_SIGNATURE_CONTEXT : string :=
  REGISTER_ENTITY_SIGNATURE_CONTEXT.
Definition REGISTER_NODE_SIGNATURE_CONTEXT : string :=
  "oasis-core/registry: register node".
Definition REGISTER_GENESIS_NODE_SIGNATURE_CONTEXT : string :=
  REGISTER_NODE_SIGNATURE_CONTEXT.

(** Method names (lines 35-51). *)
Definition METHOD_REGISTER_ENTITY : string := "registry.RegisterEntity".
Definition METHOD_DEREGISTER_ENTITY : string := "registry.DeregisterEntity".
Definition METHOD_REGISTER_NODE : string := "registry.RegisterNode".
Definition METHOD_UNFREEZE_NODE : string := "registry.UnfreezeNode".
Definition METHOD_REGISTER_RUNTIME : string := "registry.RegisterRuntime".

(** Gas operation identifiers (lines 56-82). *)
Definition GAS_OP_REGISTER_ENTITY : string := "register_entity".
Definition GAS_OP_DEREGISTER_ENTITY : string := "deregister_entity".
Definition GAS_OP_REGISTER_NODE : string := "register_node".
Definition GAS_OP_UNFREEZE_NODE : string := "unfreeze_node".
Definition GAS_OP_REGISTER_RUNTIME : string := "register_runtime".
Definition GAS_OP_RUNTIME_EPOCH_MAINTENANCE : string := "runtime_epoch_maintenance".
Definition GAS_OP_UPDATEKEY_MANAGER : string := "update_keymanager".

(** Runtime kinds (lines 87-95). *)
Definition KIND_INVALID : Z := 0.
Definition KIND_COMPUTE : Z := 1.
Definition KIND_KEY_MANAGER : Z := 2.

(** Governance models (lines 97-101). *)
Definition GOVERNANCE_INVALID : Z := 0.
Definition GOVERNANCE_ENTITY : Z := 1.
Definition GOVERNANCE_RUNTIME : Z := 2.
Definition GOVERNANCE_CONSENSUS : Z := 3.
Definition GOVERNANCE_MAX : Z := GOVERNANCE_CONSENSUS.

(** Descriptor version (line 107). *)
Definition LATEST_RUNTIME_DESCRIPTOR_VERSION : Z := 2.

(** Module name and error codes (lines 112-201). *)
Definition MODULE_NAME : string := "registry".
Definition CODE_INVALID_ARGUMENT : Z := 1.
Definition CODE_INVALID_SIGNATURE : Z := 2.
Definition CODE_BAD_ENTITY_FOR_NODE : Z := 3.
Definition CODE_BAD_ENTITY_FOR_RUNTIME : Z := 4.
Definition CODE_NO_ENCLAVE_FOR_RUNTIME : Z := 5.
Definition CODE_BAD_ENCLAVE_IDENTITY : Z := 6.
Definition CODE_BAD_CAPABILITIES_TEE_HARDWARE : Z := 7.
Definition CODE_TEE_HARDWARE_MISMATCH : Z := 8.
Definition CODE_NO_SUCH_ENTITY : Z := 9.
Definition CODE_NO_SUCH_NODE : Z := 10.
Definition CODE_NO_SUCH_RUNTIME : Z := 11.
Definition CODE_INCORRECT_TX_SIGNER : Z := 12.
Definition CODE_NODE_EXPIRED : Z := 13.
Definition CODE_NODE_CANNOT_BE_UNFROZEN : Z := 14.
Definition CODE_ENTITY_HAS_NODES : Z := 15.
Definition CODE_FORBIDDEN : Z := 16.
Definition CODE_NODE_UPDATE_NOT_ALLOWED : Z := 17.
Definition CODE_RUNTIME_UPDATE_NOT_ALLOWED : Z := 18.
Definition CODE_ENTITY_HAS_RUNTIMES : Z := 19.

(** The failure conditions, named as the doc comment above each [CODE_*]
    binding names them ("ErrInvalidArgument is the error returned on
    malformed argument(s)", ...). *)
Inductive ErrorCondition : Type :=
| ErrInvalidArgument
| ErrInvalidSignature
| ErrBadEntityForNode
| ErrBadEntityForRuntime
| ErrNoEnclaveForRuntime
| ErrBadEnclaveIdentity
| ErrBadCapabilitiesTEEHardware
| ErrTEEHardwareMismatch
| ErrNoSuchEntity
| ErrNoSuchNode
| ErrNoSuchRuntime
| ErrIncorrectTxSigner
| ErrNodeExpired
| ErrNodeCannotBeUnfrozen
| ErrEntityHasNodes
| ErrForbidden
| ErrNodeUpdateNotAllowed
| ErrRuntimeUpdateNotAllowed
| ErrEntityHasRuntimes.

(** The pairing of each documented condition with the binding declared
    under its doc comment. *)
Definition code (e : ErrorCondition) : Z :=
  match e with
  | ErrInvalidArgument => CODE_INVALID_ARGUMENT
  | ErrInvalidSignature => CODE_INVALID_SIGNATURE
  | ErrBadEntityForNode => CODE_BAD_ENTITY_FOR_NODE
  | ErrBadEntityForRuntime => CODE_BAD_ENTITY_FOR_RUNTIME
  | ErrNoEnclaveForRuntime => CODE_NO_ENCLAVE_FOR_RUNTIME
  | ErrBadEnclaveIdentity => CODE_BAD_ENCLAVE_IDENTITY
  | ErrBadCapabilitiesTEEHardware => CODE_BAD_CAPABILITIES_TEE_HARDWARE
  | ErrTEEHardwareMismatch => CODE_TEE_HARDWARE_MISMATCH
  | ErrNoSuchEntity => CODE_NO_SUCH_ENTITY
  | ErrNoSuchNode => CODE_NO_SUCH_NODE
  | ErrNoSuchRuntime => CODE_NO_SUCH_RUNTIME
  | ErrIncorrectTxSigner => CODE_INCORRECT_TX_SIGNER
  | ErrNodeExpired => CODE_NODE_EXPIRED
  | ErrNodeCannotBeUnfrozen => CODE_NODE_CANNOT_BE_UNFROZEN
  | ErrEntityHasNodes => CODE_ENTITY_HAS_NODES
  | ErrForbidden => CODE_FORBIDDEN
  | ErrNodeUpdateNotAllowed => CODE_NODE_UPDATE_NOT_ALLOWED
  | ErrRuntimeUpdateNotAllowed => CODE_RUNTIME_UPDATE_NOT_ALLOWED
  | ErrEntityHasRuntimes => CODE_ENTITY_HAS_RUNTIMES
  end.

(** The conditions in declaration order. *)
Definition error_conditions : list ErrorCondition :=
  [ ErrInvalidArgument; ErrInvalidSignature; ErrBadEntityForNode;
    ErrBadEntityForRuntime; ErrNoEnclaveForRuntime; ErrBadEnclaveIdentity;
    ErrBadCapabilitiesTEEHardware; ErrTEEHardwareMismatch; ErrNoSuchEntity;
    ErrNoSuchNode; ErrNoSuchRuntime; ErrIncorrectTxSigner; ErrNodeExpired;
    ErrNodeCannotBeUnfrozen; ErrEntityHasNodes; ErrForbidden;
    ErrNodeUpdateNotAllowed; ErrRuntimeUpdateNotAllowed; ErrEntityHasRuntimes ].

(** The error-code bindings in declaration order. *)
Definition error_codes : list Z :=
  [ CODE_INVALID_ARGUMENT; CODE_INVALID_SIGNATURE; CODE_BAD_ENTITY_FOR_NODE;
    CODE_BAD_ENTITY_FOR_RUNTIME; CODE_NO_ENCLAVE_FOR_RUNTIME;
    CODE_BAD_ENCLAVE_IDENTITY; CODE_BAD_CAPABILITIES_TEE_HARDWARE;
    CODE_TEE_HARDWARE_MISMATCH; CODE_NO_SUCH_ENTITY; CODE_NO_SUCH_NODE;
    CODE_NO_SUCH_RUNTIME; CODE_INCORRECT_TX_SIGNER; CODE_NODE_EXPIRED;
    CODE_NODE_CANNOT_BE_UNFROZEN; CODE_ENTITY_HAS_NODES; CODE_FORBIDDEN;
    CODE_NODE_UPDATE_NOT_ALLOWED; CODE_RUNTIME_UPDATE_NOT_ALLOWED;
    CODE_ENTITY_HAS_RUNTIMES ].

(** The groups of wire identifiers, in declaration order. *)
Definition signature_contexts : list string :=
  [ REGISTER_ENTITY_SIGNATURE_CONTEXT; REGISTER_NODE_SIGNATURE_CONTEXT ].

Definition methods : list string :=
  [ METHOD_REGISTER_ENTITY; METHOD_DEREGISTER_ENTITY; METHOD_REGISTER_NODE;
    METHOD_UNFREEZE_NODE; METHOD_REGISTER_RUNTIME ].

Definition gas_ops : list string :=
  [ GAS_OP_REGISTER_ENTITY; GAS_OP_DEREGISTER_ENTITY; GAS_OP_REGISTER_NODE;
    GAS_OP_UNFREEZE_NODE; GAS_OP_REGISTER_RUNTIME;
    GAS_OP_RUNTIME_EPOCH_MAINTENANCE; GAS_OP_UPDATEKEY_MANAGER ].

(** The governance bindings that name a model (all but the derived bound
    [GOVERNANCE_MAX]), and those of them that are not the sentinel. *)
Definition governance_models : list Z :=
  [ GOVERNANCE_INVALID; GOVERNANCE_ENTITY; GOVERNANCE_RUNTIME;
    GOVERNANCE_CONSENSUS ].

Definition non_sentinel_governance_models : list Z :=
  filter (fun g => negb (g =? GOVERNANCE_INVALID)) governance_models.

End Registry.

(** ** cypress.config.ts *)

(** The fragment of JavaScript values the configuration file builds:
    booleans, strings, functions (compared by identity, so a function is its
    reference) and objects, an object being its own properties in insertion
    order. *)
Module Js.

#[local] Set Warnings "-register-all".

Inductive Value : Type :=
| Undefined
| Bool (b : bool)
| Str (s : string)
| Function (ref : nat)
| Object (props : list (string * Value)).

(** [o.k = v] on a property list: an existing key keeps its place and takes
    the new value, a new key goes last. *)
Fixpoint set_prop (k : string) (v : Value) (props : list (string * Value))
  : list (string * Value) :=
  match props with
  | [] => [(k, v)]
  | (k', v') :: rest =>
      if String.eqb k k' then (k, v) :: rest
      else (k', v') :: set_prop k v rest
  end.

(** An object literal [{k1: v1, ..., kn: vn}] defines its properties from
    left to right. *)
Definition literal (props : list (string * Value)) : Value :=
  Object (fold_left (fun acc kv => set_prop (fst kv) (snd kv) acc) props []).

Fixpoint lookup (k : string) (props : list (string * Value)) : Value :=
  match props with
  | [] => Undefined
  | (k', v) :: rest => if String.eqb k k' then v else lookup k rest
  end.

(** Property access [o.k]; a property that is absent reads as [undefined].
    (Reading a property of [undefined] throws in JavaScript; the
    configuration file reads properties of objects only, and [get] gives
    [Undefined] there.) *)
Definition get (o : Value) (k : string) : Value :=
  match o with
  | Object props => lookup k props
  | _ => Undefined
  end.

End Js.

Module CypressConfig.

(** The default export of cypress.config.ts (lines 4-10).  [defineConfig] is
    the helper imported from the [cypress] package and [outputConsoleLogs]
    the namespace object of the module imported from
    [./../core/cypress/outputConsoleLogs]; the file is closed over both. *)
Definition default_export
    (defineConfig : Js.Value -> Js.Value) (outputConsoleLogs : Js.Value)
  : Js.Value :=
  defineConfig
    (Js.literal
       [ ("video", Js.Bool false);
         ("e2e",
          Js.literal
            [ ("supportFile", Js.Bool false);
              ("setupNodeEvents", Js.get outputConsoleLogs "setupNodeEvents") ]) ]).

End CypressConfig.

(** ** Auxiliary notions used to state the properties *)

(** The code of each character of a string: for the ASCII literals of
    registry.ts this is the byte sequence that goes on the wire. *)
Fixpoint char_codes (s : string) : list Z :=
  match s with
  | EmptyString => []
  | String c rest => Z.of_nat (nat_of_ascii c) :: char_codes rest
  end.

(** Lower-case letters and underscores only, and at least one character. *)
Definition snake_char (c : ascii) : bool :=
  let n := nat_of_ascii c in
  ((97 <=? n)%nat && (n <=? 122)%nat) || (n =? 95)%nat.

Fixpoint all_chars (p : ascii -> bool) (s : string) : bool :=
  match s with
  | EmptyString => true
  | String c rest => p c && all_chars p rest
  end.

Definition snake_case (s : string) : bool :=
  negb (String.eqb s "") && all_chars snake_char s.

(** Boolean test that no string occurs twice in a list. *)
Fixpoint mem_string (x : string) (l : list string) : bool :=
  match l with
  | [] => false
  | y :: rest => String.eqb x y || mem_string x rest
  end.

Fixpoint distinct_strings (l : list string) : bool :=
  match l with
  | [] => true
  | x :: rest => negb (mem_string x rest) && distinct_strings rest
  end.

(** The greatest element of a list of integers, if it has one. *)
Definition maximum (l : list Z) : option Z :=
  match l with
  | [] => None
  | x :: rest => Some (fold_left Z.max rest x)
  end.

(** ** Shared lemmas *)

Section DistinctStrings.

Lemma mem_string_In (x : string) (l : list string) :
  mem_string x l = false -> ~ In x l.
Proof.
  induction l as [|y rest IH]; simpl.
  - intros _ [].
  - intros H [Heq | Hin].
    + subst y. rewrite String.eqb_refl in H. discriminate.
    + apply orb_false_elim in H. destruct H as [_ H]. exact (IH H Hin).
Qed.

Lemma distinct_strings_NoDup (l : list string) :
  distinct_strings l = true -> NoDup l.
Proof.
  induction l as [|x rest IH]; simpl; intros H.
  - constructor.
  - apply andb_prop in H. destruct H as [Hx Hrest].
    constructor.
    + apply mem_string_In. now apply negb_true_iff.
    + now apply IH.
Qed.

End DistinctStrings.

Section Maximum.

Lemma fold_max_ge (l : list Z) (x : Z) : x <= fold_left Z.max l x.
Proof.
  revert x. induction l as [|y rest IH]; simpl; intros x.
  - lia.
  - specialize (IH (Z.max x y)). lia.
Qed.

Lemma fold_max_upper (l : list Z) (x : Z) :
  Forall (fun y => y <= fold_left Z.max l x) l.
Proof.
  revert x. induction l as [|y rest IH]; simpl; intros x.
  - constructor.
  - constructor.
    + pose proof (fold_max_ge rest (Z.max x y)). lia.
    + apply IH.
Qed.

Lemma fold_max_In (l : list Z) (x : Z) :
  fold_left Z.max l x = x \/ In (fold_left Z.max l x) l.
Proof.
  revert x. induction l as [|y rest IH]; simpl; intros x.
  - now left.
  - destruct (IH (Z.max x y)) as [H | H].
    + rewrite H. destruct (Z.max_spec x y) as [[_ E] | [_ E]]; rewrite E; auto.
    + auto.
Qed.

(** [maximum] returns an element of the list that bounds every element. *)
Lemma maximum_spec (l : list Z) (m : Z) :
  maximum l = Some m -> In m l /\ Forall (fun y => y <= m) l.
Proof.
  destruct l as [|x rest]; simpl; [discriminate|].
  intros H. injection H as <-. split.
  - destruct (fold_max_In rest x) as [E | E]; [left; now rewrite E | now right].
  - constructor; [apply fold_max_ge | apply fold_max_upper].
Qed.

End Maximum.

(** ** Properties of the registry constants *)

Module RegistryFacts.

Import Registry.

(** C1: the genesis signature contexts are aliases of their non-genesis
    counterparts: [REGISTER_GENESIS_ENTITY_SIGNATURE_CONTEXT] equals
    [REGISTER_ENTITY_SIGNATURE_CONTEXT] and
    [REGISTER_GENESIS_NODE_SIGNATURE_CONTEXT] equals
    [REGISTER_NODE_SIGNATURE_CONTEXT], as values and under the string
    comparison [===]; hence whatever a consumer computes from a genesis
    context (a signature check, say) it computes from the non-genesis one. *)
Theorem genesis_contexts_are_aliases :
  REGISTER_GENESIS_ENTITY_SIGNATURE_CONTEXT = REGISTER_ENTITY_SIGNATURE_CONTEXT
  /\ REGISTER_GENESIS_NODE_SIGNATURE_CONTEXT = REGISTER_NODE_SIGNATURE_CONTEXT
  /\ String.eqb REGISTER_GENESIS_ENTITY_SIGNATURE_CONTEXT
                REGISTER_ENTITY_SIGNATURE_CONTEXT = true
  /\ String.eqb REGISTER_GENESIS_NODE_SIGNATURE_CONTEXT
                REGISTER_NODE_SIGNATURE_CONTEXT = true
  /\ (forall (A : Type) (verify : string -> A),
        verify REGISTER_GENESIS_ENTITY_SIGNATURE_CONTEXT
          = verify REGISTER_ENTITY_SIGNATURE_CONTEXT
        /\ verify REGISTER_GENESIS_NODE_SIGNATURE_CONTEXT
          = verify REGISTER_NODE_SIGNATURE_CONTEXT).
Proof.
  unfold REGISTER_GENESIS_ENTITY_SIGNATURE_CONTEXT,
         REGISTER_GENESIS_NODE_SIGNATURE_CONTEXT.
  rewrite !String.eqb_refl.
  repeat split.
Qed.

(** C2: the nineteen error codes [CODE_INVALID_ARGUMENT] ...
    [CODE_ENTITY_HAS_RUNTIMES] are, in declaration order, the integers 1 to
    19; they are pairwise distinct; and the pairing of documented failure
    conditions with codes (invalid argument = 1, invalid signature = 2, ...,
    entity has runtimes = 19) is one to one: the conditions listed are all
    the conditions, without repetition ([Listing]), distinct conditions have
    distinct codes ([Injective]), and every code belongs to exactly one
    condition. *)
Theorem error_codes_are_1_to_19 :
  error_codes = map Z.of_nat (seq 1 19)
  /\ List.length error_codes = 19%nat
  /\ NoDup error_codes
  /\ map (fun e => (e, code e)) error_conditions
     = [ (ErrInvalidArgument, 1); (ErrInvalidSignature, 2);
         (ErrBadEntityForNode, 3); (ErrBadEntityForRuntime, 4);
         (ErrNoEnclaveForRuntime, 5); (ErrBadEnclaveIdentity, 6);
         (ErrBadCapabilitiesTEEHardware, 7); (ErrTEEHardwareMismatch, 8);
         (ErrNoSuchEntity, 9); (ErrNoSuchNode, 10); (ErrNoSuchRuntime, 11);
         (ErrIncorrectTxSigner, 12); (ErrNodeExpired, 13);
         (ErrNodeCannotBeUnfrozen, 14); (ErrEntityHasNodes, 15);
         (ErrForbidden, 16); (ErrNodeUpdateNotAllowed, 17);
         (ErrRuntimeUpdateNotAllowed, 18); (ErrEntityHasRuntimes, 19) ]
  /\ map code error_conditions = error_codes
  /\ Listing error_conditions
  /\ Injective code
  /\ Forall (fun z => exists e, code e = z /\ forall e', code e' = z -> e' = e)
            error_codes.
Proof.
  assert (Hvals : error_codes = map Z.of_nat (seq 1 19)) by reflexivity.
  assert (Hinj : Injective code).
  { intros e1 e2; destruct e1; destruct e2; intros H;
      solve [reflexivity | discriminate H]. }
  assert (Hcodes : NoDup error_codes).
  { rewrite Hvals. apply Injective_map_NoDup.
    - intros a b. apply Nat2Z.inj.
    - apply seq_NoDup. }
  assert (Hmap : map code error_conditions = error_codes) by reflexivity.
  split; [exact Hvals|].
  split; [reflexivity|].
  split; [exact Hcodes|].
  split; [reflexivity|].
  split; [exact Hmap|].
  split.
  { split.
    - apply (NoDup_map_inv code). rewrite Hmap. exact Hcodes.
    - intros e; destruct e; simpl; tauto. }
  split; [exact Hinj|].
  rewrite <- Hmap. apply Forall_forall. intros z Hz.
  apply in_map_iff in Hz. destruct Hz as [e [He _]].
  exists e. split; [exact He|].
  intros e' He'. apply Hinj. congruence.
Qed.

(** C3: the two base signature contexts are the exact wire literals:
    [REGISTER_ENTITY_SIGNATURE_CONTEXT] is
    'oasis-core/registry: register entity' and
    [REGISTER_NODE_SIGNATURE_CONTEXT] is
    'oasis-core/registry: register node', byte for byte (the same 36 and 34
    character codes in the same order). *)
Theorem signature_context_literals :
  REGISTER_ENTITY_SIGNATURE_CONTEXT = "oasis-core/registry: register entity"
  /\ REGISTER_NODE_SIGNATURE_CONTEXT = "oasis-core/registry: register node"
  /\ char_codes REGISTER_ENTITY_SIGNATURE_CONTEXT
     = [111; 97; 115; 105; 115; 45; 99; 111; 114; 101; 47; 114; 101; 103; 105;
        115; 116; 114; 121; 58; 32; 114; 101; 103; 105; 115; 116; 101; 114; 32;
        101; 110; 116; 105; 116; 121]
  /\ char_codes REGISTER_NODE_SIGNATURE_CONTEXT
     = [111; 97; 115; 105; 115; 45; 99; 111; 114; 101; 47; 114; 101; 103; 105;
        115; 116; 114; 121; 58; 32; 114; 101; 103; 105; 115; 116; 101; 114; 32;
        110; 111; 100; 101].
Proof.
  repeat split; vm_compute; reflexivity.
Qed.

(** C4: [MODULE_NAME] is 'registry'; the five method constants are exactly
    'registry.RegisterEntity', 'registry.DeregisterEntity',
    'registry.RegisterNode', 'registry.UnfreezeNode' and
    'registry.RegisterRuntime'; and every method name starts with
    [MODULE_NAME + '.'], which is 'registry.'. *)
Theorem method_names_and_prefix :
  MODULE_NAME = "registry"
  /\ METHOD_REGISTER_ENTITY = "registry.RegisterEntity"
  /\ METHOD_DEREGISTER_ENTITY = "registry.DeregisterEntity"
  /\ METHOD_REGISTER_NODE = "registry.RegisterNode"
  /\ METHOD_UNFREEZE_NODE = "registry.UnfreezeNode"
  /\ METHOD_REGISTER_RUNTIME = "registry.RegisterRuntime"
  /\ (MODULE_NAME ++ ".")%string = "registry."
  /\ Forall (fun m => String.prefix (MODULE_NAME ++ ".") m = true) methods
  /\ methods
     = map (fun verb_noun => (MODULE_NAME ++ "." ++ verb_noun)%string)
           [ "RegisterEntity"; "DeregisterEntity"; "RegisterNode";
             "UnfreezeNode"; "RegisterRuntime" ].
Proof.
  do 7 (split; [reflexivity|]).
  split; [|reflexivity].
  unfold methods. repeat (constructor; [reflexivity|]). constructor.
Qed.

(** C5: [GOVERNANCE_MAX] equals [GOVERNANCE_CONSENSUS], and it is the
    maximum of the defined non-sentinel governance values (those of
    [GOVERNANCE_ENTITY] = 1, [GOVERNANCE_RUNTIME] = 2 and
    [GOVERNANCE_CONSENSUS] = 3, the sentinel [GOVERNANCE_INVALID] = 0 left
    out), that is 3: it is one of them and none of them exceeds it. *)
Theorem governance_max_is_maximum :
  GOVERNANCE_MAX = GOVERNANCE_CONSENSUS
  /\ non_sentinel_governance_models
     = [GOVERNANCE_ENTITY; GOVERNANCE_RUNTIME; GOVERNANCE_CONSENSUS]
  /\ non_sentinel_governance_models = [1; 2; 3]
  /\ maximum non_sentinel_governance_models = Some GOVERNANCE_MAX
  /\ In GOVERNANCE_MAX non_sentinel_governance_models
  /\ Forall (fun g => g <= GOVERNANCE_MAX) non_sentinel_governance_models
  /\ GOVERNANCE_MAX = 3.
Proof.
  assert (Hmax : maximum non_sentinel_governance_models = Some GOVERNANCE_MAX)
    by reflexivity.
  destruct (maximum_spec _ _ Hmax) as [Hin Hub].
  repeat split; assumption || reflexivity.
Qed.

(** C6: the enumeration constants have the values of the interface table:
    [KIND_INVALID] = 0, [KIND_COMPUTE] = 1, [KIND_KEY_MANAGER] = 2 for the
    runtime kind, and [GOVERNANCE_INVALID] = 0, [GOVERNANCE_ENTITY] = 1,
    [GOVERNANCE_RUNTIME] = 2, [GOVERNANCE_CONSENSUS] = 3 for the governance
    model; in each enumeration 0 is the value of the 'Invalid' sentinel and
    of no other member. *)
Theorem enumeration_values :
  (KIND_INVALID = 0 /\ KIND_COMPUTE = 1 /\ KIND_KEY_MANAGER = 2)
  /\ (GOVERNANCE_INVALID = 0 /\ GOVERNANCE_ENTITY = 1
      /\ GOVERNANCE_RUNTIME = 2 /\ GOVERNANCE_CONSENSUS = 3)
  /\ Forall (fun k => k <> KIND_INVALID) [KIND_COMPUTE; KIND_KEY_MANAGER]
  /\ Forall (fun g => g <> GOVERNANCE_INVALID) non_sentinel_governance_models.
Proof.
  split; [repeat split|].
  split; [repeat split|].
  split; repeat constructor; discriminate.
Qed.

(** C7: the seven gas-operation constants are exactly the snake_case
    literals 'register_entity', 'deregister_entity', 'register_node',
    'unfreeze_node', 'register_runtime', 'runtime_epoch_maintenance' and
    'update_keymanager' (lower-case letters and underscores only). *)
Theorem gas_op_literals :
  GAS_OP_REGISTER_ENTITY = "register_entity"
  /\ GAS_OP_DEREGISTER_ENTITY = "deregister_entity"
  /\ GAS_OP_REGISTER_NODE = "register_node"
  /\ GAS_OP_UNFREEZE_NODE = "unfreeze_node"
  /\ GAS_OP_REGISTER_RUNTIME = "register_runtime"
  /\ GAS_OP_RUNTIME_EPOCH_MAINTENANCE = "runtime_epoch_maintenance"
  /\ GAS_OP_UPDATEKEY_MANAGER = "update_keymanager"
  /\ List.length gas_ops = 7%nat
  /\ Forall (fun op => snake_case op = true) gas_ops.
Proof.
  do 8 (split; [reflexivity|]).
  apply Forall_forall. intros op Hop. simpl in Hop.
  repeat (destruct Hop as [<- | Hop]; [vm_compute; reflexivity|]).
  destruct Hop.
Qed.

(** C8: [LATEST_RUNTIME_DESCRIPTOR_VERSION] is the integer 2. *)
Theorem latest_runtime_descriptor_version_is_2 :
  LATEST_RUNTIME_DESCRIPTOR_VERSION = 2.
Proof. reflexivity. Qed.

(** C9: within each group of wire identifiers the values are pairwise
    distinct: the two non-genesis signature contexts differ, the five method
    names are pairwise distinct, and the seven gas-operation identifiers are
    pairwise distinct. *)
Theorem wire_identifiers_distinct :
  REGISTER_ENTITY_SIGNATURE_CONTEXT <> REGISTER_NODE_SIGNATURE_CONTEXT
  /\ NoDup signature_contexts
  /\ (List.length methods = 5%nat /\ NoDup methods)
  /\ (List.length gas_ops = 7%nat /\ NoDup gas_ops).
Proof.
  split; [discriminate|].
  split; [apply distinct_strings_NoDup; reflexivity|].
  split; (split; [reflexivity | apply distinct_strings_NoDup; reflexivity]).
Qed.

End RegistryFacts.

(** ** Properties of the test-runner configuration *)

Module CypressConfigFacts.

Section DefaultExport.

(** The two imports of cypress.config.ts.  The [cypress] package documents
    [defineConfig] as a typing helper that hands back the configuration it
    is given. *)
Variable defineConfig : Js.Value -> Js.Value.
Variable outputConsoleLogs : Js.Value.
Hypothesis defineConfig_returns_its_argument : forall c, defineConfig c = c.

(** C10: the default-exported configuration has video recording disabled
    ([video] is [false]), loads no support file ([e2e.supportFile] is
    [false]), and its [e2e.setupNodeEvents] is the [setupNodeEvents] of the
    imported [outputConsoleLogs] module. *)
Theorem default_export_settings :
  let config := CypressConfig.default_export defineConfig outputConsoleLogs in
  Js.get config "video" = Js.Bool false
  /\ Js.get (Js.get config "e2e") "supportFile" = Js.Bool false
  /\ Js.get (Js.get config "e2e") "setupNodeEvents"
     = Js.get outputConsoleLogs "setupNodeEvents".
Proof.
  unfold CypressConfig.default_export.
  rewrite defineConfig_returns_its_argument.
  cbv zeta. repeat split.
Qed.

End DefaultExport.

(** The statement at the identity helper and a module that exports the
    function with reference 1 under [setupNodeEvents]. *)
Lemma default_export_settings_witness :
  (forall c : Js.Value, (fun v => v) c = c)
  /\ Js.get (CypressConfig.default_export (fun v => v)
               (Js.literal [("setupNodeEvents", Js.Function 1)])) "video"
     = Js.Bool false
  /\ Js.get (Js.get (CypressConfig.default_export (fun v => v)
                       (Js.literal [("setupNodeEvents", Js.Function 1)]))
               "e2e") "supportFile"
     = Js.Bool false
  /\ Js.get (Js.get (CypressConfig.default_export (fun v => v)
                       (Js.literal [("setupNodeEvents", Js.Function 1)]))
               "e2e") "setupNodeEvents"
     = Js.Function 1.
Proof.
  split.
  - intros c. reflexivity.
  - exact (default_export_settings (fun v => v)
             (Js.literal [("setupNodeEvents", Js.Function 1)])
             (fun c => eq_refl)).
Defined.

End CypressConfigFacts.

(** ** Further properties: ranges, signing domains, unset options *)

Section PrefixFree.

(** Two strings neither of which is a prefix of the other have no common
    extension. *)
Lemma prefix_free_no_common_extension (a b : string) :
  String.prefix a b = false -> String.prefix b a = false ->
  forall m1 m2 : string, (a ++ m1)%string <> (b ++ m2)%string.
Proof.
  revert b. induction a as [|c a' IH]; intros b Hab Hba m1 m2.
  - destruct b; discriminate Hab.
  - destruct b as [|d b'].
    + discriminate Hba.
    + simpl in Hab, Hba. simpl. intros Heq.
      injection Heq as Hcd Hrest. subst d.
      destruct (ascii_dec c c) as [_ | Hne]; [|now apply Hne].
      exact (IH b' Hab Hba m1 m2 Hrest).
Qed.

End PrefixFree.

Module RegistryDomains.

Import Registry.


(** X2: the entity and node signature contexts are prefix-free: neither is a
    prefix of the other, so no byte string that starts with one of them
    starts with the other, whatever message follows the context. *)
Theorem signature_contexts_prefix_free :
  String.prefix REGISTER_ENTITY_SIGNATURE_CONTEXT
                REGISTER_NODE_SIGNATURE_CONTEXT = false
  /\ String.prefix REGISTER_NODE_SIGNATURE_CONTEXT
                   REGISTER_ENTITY_SIGNATURE_CONTEXT = false
  /\ (forall m1 m2 : string,
        (REGISTER_ENTITY_SIGNATURE_CONTEXT ++ m1)%string
        <> (REGISTER_NODE_SIGNATURE_CONTEXT ++ m2)%string).
Proof.
  assert (Hen : String.prefix REGISTER_ENTITY_SIGNATURE_CONTEXT
                              REGISTER_NODE_SIGNATURE_CONTEXT = false)
    by (vm_compute; reflexivity).
  assert (Hne : String.prefix REGISTER_NODE_SIGNATURE_CONTEXT
                              REGISTER_ENTITY_SIGNATURE_CONTEXT = false)
    by (vm_compute; reflexivity).
  split; [exact Hen|]. split; [exact Hne|].
  exact (prefix_free_no_common_extension _ _ Hen Hne).
Qed.

End RegistryDomains.

Module CypressConfigShape.

Section UnsetOptions.

Variable defineConfig : Js.Value -> Js.Value.
Variable outputConsoleLogs : Js.Value.
Hypothesis defineConfig_returns_its_argument : forall c, defineConfig c = c.


End UnsetOptions.


End CypressConfigShape.
